(** * check_cc2652p: the Zigbee module checker

    A shallow embedding of [check_cc2652p.py] (class [ZigbeeModuleChecker]
    and [main]) and the properties of its version-response decoder and of
    its orchestration.

    Modelling choices.
    - [bytes] values are lists of [Byte.byte]; indexing yields the integer
      value of the byte, as in Python.
    - [str] values are [String.string]; characters are taken in the ASCII
      range, where Python's whitespace is 9..13 and 28..32.
    - The methods print, talk to the operating system and may raise.  They
      run in the monad [M]: a computation reads the outside [World] (what
      [os.popen] and the serial port answer), threads the attributes of
      [self], appends to a trace of [event]s and ends in a [result]: a
      returned value, a raised exception or [sys.exit].
    - The outside world raises subclasses of [Exception] only; a [Write]
      event records that [ser.write] was called, whether or not it then
      raised. *)

From Stdlib Require Import List String Ascii Bool Arith NArith ZArith Lia.
From Stdlib Require Import Strings.Byte.
From Stdlib Require Import DecimalString.
Import ListNotations.
Local Open Scope list_scope.
Local Open Scope string_scope.

(** ** Bytes and strings *)

Definition bytes := list byte.

Definition hex_digit (n : N) : ascii :=
  match n with
  | 0%N => "0" | 1%N => "1" | 2%N => "2" | 3%N => "3"
  | 4%N => "4" | 5%N => "5" | 6%N => "6" | 7%N => "7"
  | 8%N => "8" | 9%N => "9" | 10%N => "a" | 11%N => "b"
  | 12%N => "c" | 13%N => "d" | 14%N => "e" | _ => "f"
  end%char.

Definition hex_byte (b : byte) : string :=
  String (hex_digit (N.div (Byte.to_N b) 16))
    (String (hex_digit (N.modulo (Byte.to_N b) 16)) EmptyString).

(** [bytes.hex()] *)
Fixpoint hex (bs : bytes) : string :=
  match bs with
  | [] => ""
  | b :: t => hex_byte b ++ hex t
  end.

(** [str(n)] for a non-negative integer, as an f-string formats it *)
Definition str_of_N (n : N) : string :=
  NilEmpty.string_of_uint (N.to_uint n).

(** [bytes.startswith(prefix)] *)
Fixpoint startswith (b p : bytes) {struct p} : bool :=
  match p with
  | [] => true
  | x :: p' =>
      match b with
      | [] => false
      | y :: b' => Byte.eqb y x && startswith b' p'
      end
  end.

(** [b[lo:hi]] for constant bounds [0 <= lo <= hi]: never raises, clips *)
Definition slice (b : bytes) (lo hi : nat) : bytes :=
  firstn (hi - lo) (skipn lo b).

(** [b[lo:]] *)
Definition slice_from (b : bytes) (lo : nat) : bytes := skipn lo b.

(** [str.isspace] on one character *)
Definition isspace (c : ascii) : bool :=
  let n := nat_of_ascii c in
  (((9 <=? n) && (n <=? 13)) || ((28 <=? n) && (n <=? 32)))%nat%bool.

Fixpoint lstrip (s : string) : string :=
  match s with
  | EmptyString => EmptyString
  | String c s' => if isspace c then lstrip s' else s
  end.

Fixpoint rstrip (s : string) : string :=
  match s with
  | EmptyString => EmptyString
  | String c s' =>
      match rstrip s' with
      | EmptyString => if isspace c then EmptyString else String c EmptyString
      | r => String c r
      end
  end.

(** [str.strip()] *)
Definition strip (s : string) : string := rstrip (lstrip s).

(** [str.split()]: the words between runs of whitespace; [cur] is the word
    being read *)
Fixpoint split_from (cur : option string) (s : string) : list string :=
  match s with
  | EmptyString => match cur with Some w => [w] | None => [] end
  | String c s' =>
      if isspace c then
        match cur with
        | Some w => w :: split_from None s'
        | None => split_from None s'
        end
      else
        split_from
          (Some (match cur with
                 | Some w => w ++ String c EmptyString
                 | None => String c EmptyString
                 end)) s'
  end.

Definition split (s : string) : list string := split_from None s.

(** [sep.join(xs)] *)
Definition join (sep : string) (xs : list string) : string :=
  String.concat sep xs.

(** ** Exceptions, events and the world *)

Inductive exn_class : Type :=
| IndexError
| SerialException
| OtherException.

Record exn : Type := mkExn { exn_cls : exn_class; exn_msg : string }.

Definition is_SerialException (e : exn) : bool :=
  match exn_cls e with SerialException => true | _ => false end.

(** What a run does that can be observed from outside. *)
Inductive event : Type :=
| Print (line : string)
| Popen (cmd : string)
| SerialOpen (port : string) (baudrate timeout : Z)
| Flock
| ResetInputBuffer
| Write (data : bytes)
| Sleep500ms
| InWaiting
| Read (size : nat)
| SerialClose.

(** traces are appended with [+++]; [++] is kept for strings *)
Notation "t1 +++ t2" := (@app event t1 t2)
  (at level 60, right associativity).

(** How a call ends: [return], [raise] or [sys.exit]. *)
Inductive result (A : Type) : Type :=
| Ret (a : A)
| Raise (e : exn)
| SysExit (code : Z).
Arguments Ret {A} a.
Arguments Raise {A} e.
Arguments SysExit {A} code.

(** The answers of the operating system and of the serial device. *)
Record World : Type := mkWorld {
  popen_read : string -> exn + string;
  serial_open : string -> Z -> Z -> option exn;
  flock : option exn;
  reset_input_buffer : option exn;
  serial_write : bytes -> option exn;
  in_waiting : exn + nat;
  serial_read : nat -> exn + bytes
}.

(** The attributes [__init__] sets on [self]. *)
Record Self : Type := mkSelf {
  port : string;
  baudrate : Z;
  timeout : Z;
  custom_command : option string;
  debug : bool
}.

(** ** The monad of methods *)

Definition M (A : Type) : Type :=
  World -> Self -> list event * Self * result A.

Definition ret {A} (a : A) : M A := fun _ s => ([], s, Ret a).

Definition bind {A B} (m : M A) (k : A -> M B) : M B :=
  fun w s =>
    match m w s with
    | (t, s', Ret a) =>
        match k a w s' with
        | (t', s'', r) => ((t ++ t')%list, s'', r)
        end
    | (t, s', Raise e) => (t, s', Raise e)
    | (t, s', SysExit c) => (t, s', SysExit c)
    end.

Notation "x <- m ;; k" := (bind m (fun x => k))
  (at level 61, m at next level, right associativity).
Notation "m ;; k" := (bind m (fun _ => k))
  (at level 61, right associativity).

Definition emit (e : event) : M unit := fun _ s => ([e], s, Ret tt).
Definition print (line : string) : M unit := emit (Print line).
Definition raise {A} (e : exn) : M A := fun _ s => ([], s, Raise e).
Definition sys_exit {A} (code : Z) : M A := fun _ s => ([], s, SysExit code).
Definition self : M Self := fun _ s => ([], s, Ret s).
Definition world : M World := fun w s => ([], s, Ret w).

(** [try: m  except Exception as e: h e]; [sys.exit] is not an [Exception] *)
Definition try_except {A} (m : M A) (h : exn -> M A) : M A :=
  fun w s =>
    match m w s with
    | (t, s', Raise e) =>
        match h e w s' with
        | (t', s'', r) => ((t ++ t')%list, s'', r)
        end
    | r => r
    end.

(** [try: m  finally: f] *)
Definition finally {A} (m : M A) (f : M unit) : M A :=
  fun w s =>
    match m w s with
    | (t, s', r) =>
        match f w s' with
        | (t', s'', Ret _) => ((t ++ t')%list, s'', r)
        | (t', s'', Raise e) => ((t ++ t')%list, s'', Raise e)
        | (t', s'', SysExit c) => ((t ++ t')%list, s'', SysExit c)
        end
    end.

(** an operation of the world that may raise *)
Definition call {A} (ev : event) (answer : World -> exn + A) : M A :=
  emit ev ;;
  w <- world ;;
  match answer w with
  | inl e => raise e
  | inr a => ret a
  end.

Definition call_ (ev : event) (answer : World -> option exn) : M unit :=
  call ev (fun w => match answer w with Some e => inl e | None => inr tt end).

Definition trace_of {A} (x : list event * Self * result A) : list event :=
  fst (fst x).
Definition self_of {A} (x : list event * Self * result A) : Self :=
  snd (fst x).
Definition result_of {A} (x : list event * Self * result A) : result A :=
  snd x.

(** [b[i]] for a constant [i >= 0] *)
Definition getitem (b : bytes) (i : nat) : M N :=
  match nth_error b i with
  | Some x => ret (Byte.to_N x)
  | None => raise (mkExn IndexError "index out of range")
  end.

(** ** ZigbeeModuleChecker *)

Definition prefix_CC2652 : bytes := [xfe; x0a; x61; x02].
Definition prefix_CC2530 : bytes := [xfe; x0e; x61; x02].
Definition prefix_CC2538 : bytes := [xfe; x10; x61; x02].

Definition process_version (response : bytes) (chip_type : string) : M unit :=
  s <- self ;;
  (if debug s then print ("Parsing response: " ++ hex response) else ret tt) ;;
  try_except
    (transport_version <- getitem response 4 ;;
     product_id <- getitem response 5 ;;
     major_release <- getitem response 6 ;;
     minor_release <- getitem response 7 ;;
     maintenance_release <- getitem response 8 ;;
     let revision := slice response 9 14 in
     print ("SYS Version response detected for " ++ chip_type ++ ":") ;;
     print ("Transport Version: " ++ str_of_N transport_version) ;;
     print ("Product ID: " ++ str_of_N product_id ++ " — " ++ chip_type
            ++ " Zigbee Module.") ;;
     print ("Major Release: " ++ str_of_N major_release) ;;
     print ("Minor Release: " ++ str_of_N minor_release) ;;
     print ("Maintenance Release: " ++ str_of_N maintenance_release) ;;
     print ("Stack Version: " ++ str_of_N major_release ++ "."
            ++ str_of_N minor_release ++ "." ++ str_of_N maintenance_release
            ++ " — Indicates Z-Stack compatibility.") ;;
     print ("Revision: " ++ hex revision ++ " — Firmware Revision Details."))
    (fun e => print ("Error while parsing the response: " ++ exn_msg e)).

Definition process_version_response (response : bytes) : M unit :=
  s <- self ;;
  (if debug s then print ("Raw response received: " ++ hex response)
   else ret tt) ;;
  match response with
  | [] => print "No response received."
  | _ :: _ =>
      (if startswith response prefix_CC2652 then
         process_version response "CC2652"
       else if startswith response prefix_CC2530 then
         process_version response "CC2530"
       else if startswith response prefix_CC2538 then
         process_version response "CC2538"
       else
         print "Unknown chip detected. Skipping specialized parsing." ;;
         print ("Raw response: " ++ hex response)) ;;
      if (14 <? List.length response)%nat then
        let async_data := slice_from response 14 in
        print "Additional asynchronous data detected. Skipping:" ;;
        print ("Raw data: " ++ hex async_data)
      else ret tt
  end.

(** [os.popen(cmd).read()] *)
Definition os_popen_read (cmd : string) : M string :=
  call (Popen cmd) (fun w => popen_read w cmd).

Definition get_process_name_by_pid (pid : string) : M (option string) :=
  try_except
    (process_info <- os_popen_read ("ps -p " ++ pid ++ " -o comm=") ;;
     ret (Some (strip process_info)))
    (fun e => ret None).

(** the list comprehension [[f(x) for x in xs]] *)
Fixpoint for_each {A B} (f : A -> M B) (xs : list A) : M (list B) :=
  match xs with
  | [] => ret []
  | x :: xs' =>
      y <- f x ;;
      ys <- for_each f xs' ;;
      ret (y :: ys)
  end.

(** [list(filter(None, names))]: drops [None] and the empty string *)
Fixpoint filter_None (names : list (option string)) : list string :=
  match names with
  | [] => []
  | None :: t => filter_None t
  | Some EmptyString :: t => filter_None t
  | Some n :: t => n :: filter_None t
  end.

(** [x in xs] on a list of strings *)
Definition contains (x : string) (xs : list string) : bool :=
  existsb (String.eqb x) xs.

Definition check_port_availability : M bool :=
  s <- self ;;
  try_except
    (out <- os_popen_read ("fuser " ++ port s) ;;
     let fuser_output := strip out in
     match fuser_output with
     | String _ _ =>
         let pids := split fuser_output in
         process_names <- for_each get_process_name_by_pid pids ;;
         let process_names := filter_None process_names in
         print ("The port " ++ port s ++ " is occupied by process ID(s): "
                ++ join ", " pids ++ " (" ++ join ", " process_names ++ ")") ;;
         (if contains "node" process_names then
            print "The process 'node' is running on the port and might be related to zigbee2mqtt." ;;
            print "Please try stopping the zigbee2mqtt service using: systemctl stop zigbee2mqtt"
          else
            print "Please stop the process or release the port manually.") ;;
         ret false
     | EmptyString => ret true
     end)
    (fun e =>
       print ("Error checking port availability: " ++ exn_msg e) ;;
       ret false).

(** [with serial.Serial(port, baudrate, timeout=timeout) as ser: body]:
    the port is closed when the block is left, also by an exception *)
Definition with_Serial {A} (p : string) (b t : Z) (body : M A) : M A :=
  call_ (SerialOpen p b t) (fun w => serial_open w p b t) ;;
  finally body (emit SerialClose).

(** [a or b] on integers *)
Definition or_nat (a b : nat) : nat :=
  match a with O => b | _ => a end.

Definition send_command (command : bytes) : M (option bytes) :=
  s <- self ;;
  try_except
    (with_Serial (port s) (baudrate s) (timeout s)
       (call_ Flock flock ;;
        call_ ResetInputBuffer reset_input_buffer ;;
        (if debug s then print ("Sending command: " ++ hex command)
         else ret tt) ;;
        call_ (Write command) (fun w => serial_write w command) ;;
        emit Sleep500ms ;;
        n <- call InWaiting in_waiting ;;
        response <- call (Read (or_nat n 64))
                         (fun w => serial_read w (or_nat n 64)) ;;
        match response with
        | [] =>
            print "No response received. The module might not be working." ;;
            ret None
        | _ :: _ => ret (Some response)
        end))
    (fun e =>
       if is_SerialException e then
         print ("Error: " ++ exn_msg e) ;; ret None
       else
         print ("Unexpected error: " ++ exn_msg e) ;; ret None).

Definition version_command : bytes := [xfe; x00; x21; x02; x23].

Definition check : M unit :=
  available <- check_port_availability ;;
  (if negb available then sys_exit 1%Z else ret tt) ;;
  response <- send_command version_command ;;
  match response with
  | Some ((_ :: _) as r) => process_version_response r
  | Some [] | None => ret tt
  end.

(** ** main *)

(** the parsed command line *)
Record Args : Type := mkArgs {
  arg_port : string;
  arg_baudrate : Z;
  arg_reset : bool;
  arg_version : bool;
  arg_timeout : Z;
  arg_custom_command : option string;
  arg_debug : bool
}.

(** [ZigbeeModuleChecker(port, baudrate, timeout, custom_command, debug)] *)
Definition ZigbeeModuleChecker (p : string) (b t : Z) (c : option string)
    (d : bool) : Self :=
  mkSelf p b t c d.

(** [main] after [parser.parse_args()]: the trace and how the process ends *)
Definition main (args : Args) (w : World) : list event * result unit :=
  let checker :=
    ZigbeeModuleChecker (arg_port args) (arg_baudrate args)
      (arg_timeout args) (arg_custom_command args) (arg_debug args) in
  let run :=
    if arg_reset args then
      print "Sending reset command..." ;; check
    else if arg_version args || negb (arg_reset args) then check
    else ret tt in
  let '(t, _, r) := run w checker in (t, r).

(** the exit status of the process: 0 when [main] returns, the code given to
    [sys.exit], 1 for a traceback *)
Definition exit_code {A} (r : result A) : Z :=
  match r with
  | Ret _ => 0
  | SysExit c => c
  | Raise _ => 1
  end%Z.

(** * Vocabulary of the statements *)

(** events present only when [b] holds *)
Definition when (b : bool) (t : list event) : list event :=
  if b then t else [].

(** the integer at offset [i] (0 past the end, where no statement reads it) *)
Definition byte_at (b : bytes) (i : nat) : N := Byte.to_N (nth i b x00).

(** the eight lines [process_version] prints for a decoded frame *)
Definition version_report (chip : string) (transport product major minor
    maintenance : N) (revision : bytes) : list event :=
  [ Print ("SYS Version response detected for " ++ chip ++ ":");
    Print ("Transport Version: " ++ str_of_N transport);
    Print ("Product ID: " ++ str_of_N product ++ " — " ++ chip
           ++ " Zigbee Module.");
    Print ("Major Release: " ++ str_of_N major);
    Print ("Minor Release: " ++ str_of_N minor);
    Print ("Maintenance Release: " ++ str_of_N maintenance);
    Print ("Stack Version: " ++ str_of_N major ++ "." ++ str_of_N minor
           ++ "." ++ str_of_N maintenance
           ++ " — Indicates Z-Stack compatibility.");
    Print ("Revision: " ++ hex revision ++ " — Firmware Revision Details.") ].

(** the line of the [except] branch of [process_version] *)
Definition parse_error_report : list event :=
  [ Print "Error while parsing the response: index out of range" ].

(** the two lines that surface the bytes [data] found after offset 14 *)
Definition async_report (data : bytes) : list event :=
  [ Print "Additional asynchronous data detected. Skipping:";
    Print ("Raw data: " ++ hex data) ].

(** the lines for a frame whose prefix is not a known one *)
Definition unknown_chip_report (response : bytes) : list event :=
  [ Print "Unknown chip detected. Skipping specialized parsing.";
    Print ("Raw response: " ++ hex response) ].

(** the known prefixes with the chip each one names *)
Definition known_prefixes : list (bytes * string) :=
  [ ([xfe; x0a; x61; x02], "CC2652");
    ([xfe; x0e; x61; x02], "CC2530");
    ([xfe; x10; x61; x02], "CC2538") ].

(** the line [l] starts with [p] *)
Fixpoint has_prefix (p l : string) : bool :=
  match p with
  | EmptyString => true
  | String a p' =>
      match l with
      | EmptyString => false
      | String b l' => Ascii.eqb a b && has_prefix p' l'
      end
  end.

(** a line that only the debug flag produces *)
Definition is_debug_line (e : event) : bool :=
  match e with
  | Print l =>
      has_prefix "Raw response received: " l
      || has_prefix "Parsing response: " l
      || has_prefix "Sending command: " l
  | _ => false
  end.

(** the [except] branch of [process_version] ran *)
Definition signals_parse_error (t : list event) : bool :=
  existsb (fun e => match e with
                    | Print l =>
                        has_prefix "Error while parsing the response: " l
                    | _ => false
                    end) t.

(** [self] with another debug flag *)
Definition with_debug (d : bool) (s : Self) : Self :=
  mkSelf (port s) (baudrate s) (timeout s) (custom_command s) d.

(** ** Sample inputs *)

(** a world where nothing holds the port and the module stays silent *)
Definition silent_world : World :=
  mkWorld (fun _ => inr "") (fun _ _ _ => None) None None (fun _ => None)
    (inr 0%nat) (fun _ => inr []).

Definition checker_on_MOD4 (d : bool) : Self :=
  ZigbeeModuleChecker "/dev/ttyMOD4" 115200 1 None d.

(** [FE 0A 61 02 02 05 02 01 03 AA BB CC DD EE] *)
Definition scenario1 : bytes :=
  [xfe; x0a; x61; x02; x02; x05; x02; x01; x03; xaa; xbb; xcc; xdd; xee].

(** the checker [main] builds from the command line *)
Definition checker_of (args : Args) : Self :=
  ZigbeeModuleChecker (arg_port args) (arg_baudrate args) (arg_timeout args)
    (arg_custom_command args) (arg_debug args).

Definition newline : string := String "010"%char EmptyString.

(** process 1234, named node, holds /dev/ttyMOD4; the module would answer
    with [scenario1] if it were asked *)
Definition scenario5_world : World :=
  mkWorld
    (fun cmd =>
       if String.eqb cmd "fuser /dev/ttyMOD4" then inr (" 1234" ++ newline)
       else if String.eqb cmd "ps -p 1234 -o comm=" then inr ("node" ++ newline)
       else inr "")
    (fun _ _ _ => None) None None (fun _ => None)
    (inr 14%nat) (fun _ => inr scenario1).

(** the port is free and the module answers with [scenario1] *)
Definition answering_world : World :=
  mkWorld (fun _ => inr "") (fun _ _ _ => None) None None (fun _ => None)
    (inr 14%nat) (fun _ => inr scenario1).

(** [python check_cc2652p.py /dev/ttyMOD4] *)
Definition default_args : Args :=
  mkArgs "/dev/ttyMOD4" 115200 false false 1 None false.

(** ** The decoder as a function from bytes to printed lines *)

Definition parse_trace (response : bytes) (chip : string) : list event :=
  match nth_error response 4, nth_error response 5, nth_error response 6,
        nth_error response 7, nth_error response 8 with
  | Some a, Some b, Some c, Some d, Some e =>
      version_report chip (Byte.to_N a) (Byte.to_N b) (Byte.to_N c)
        (Byte.to_N d) (Byte.to_N e) (slice response 9 14)
  | _, _, _, _, _ => parse_error_report
  end.

Definition classify_trace (d : bool) (response : bytes) : list event :=
  if startswith response prefix_CC2652 then
    when d [Print ("Parsing response: " ++ hex response)]
    +++ parse_trace response "CC2652"
  else if startswith response prefix_CC2530 then
    when d [Print ("Parsing response: " ++ hex response)]
    +++ parse_trace response "CC2530"
  else if startswith response prefix_CC2538 then
    when d [Print ("Parsing response: " ++ hex response)]
    +++ parse_trace response "CC2538"
  else unknown_chip_report response.

Definition decode_trace (d : bool) (response : bytes) : list event :=
  when d [Print ("Raw response received: " ++ hex response)]
  +++ match response with
     | [] => [Print "No response received."]
     | _ :: _ =>
         classify_trace d response
         +++ (if (14 <? List.length response)%nat
             then async_report (skipn 14 response) else [])
     end.

(** Scenario 1 followed by [11 22] *)
Definition scenario2 : bytes := (scenario1 ++ [x11; x22])%list.

(** [FE 0A 61 02 02 05 02 01 03]: a known prefix and the five one-byte
    fields, nothing of the revision *)
Definition nine_byte_frame : bytes :=
  [xfe; x0a; x61; x02; x02; x05; x02; x01; x03].

(** [FE 0E 61 02 02 05 02 01]: the prefix of CC2530, byte 8 missing *)
Definition eight_byte_frame : bytes :=
  [xfe; x0e; x61; x02; x02; x05; x02; x01].

(** [00 01 02 03] *)
Definition scenario3 : bytes := [x00; x01; x02; x03].

(** the command bytes written to the serial port, in order *)
Fixpoint writes (t : list event) : list bytes :=
  match t with
  | [] => []
  | Write data :: t' => data :: writes t'
  | _ :: t' => writes t'
  end.

(** an event of the exchange with the serial device *)
Definition is_exchange (e : event) : bool :=
  match e with
  | Print _ | Popen _ => false
  | _ => true
  end.

(** [fuser] ran and printed nothing but whitespace *)
Definition fuser_reports_free (w : World) (s : Self) : bool :=
  match popen_read w ("fuser " ++ port s) with
  | inr out => match strip out with EmptyString => true | _ => false end
  | inl _ => false
  end.

(** the port opens and is locked and flushed without an error *)
Definition port_opens (w : World) (s : Self) : bool :=
  match serial_open w (port s) (baudrate s) (timeout s), flock w,
        reset_input_buffer w with
  | None, None, None => true
  | _, _, _ => false
  end.

(** what [get_process_name_by_pid] returns *)
Definition process_name (w : World) (pid : string) : option string :=
  match popen_read w ("ps -p " ++ pid ++ " -o comm=") with
  | inl _ => None
  | inr out => Some (strip out)
  end.

(** the events of [check_port_availability] on the port [p] *)
Definition availability_trace (w : World) (p : string) : list event :=
  Popen ("fuser " ++ p)
  :: match popen_read w ("fuser " ++ p) with
     | inl e => [Print ("Error checking port availability: " ++ exn_msg e)]
     | inr out =>
         match strip out with
         | EmptyString => []
         | String c rest =>
             let pids := split (String c rest) in
             let names := filter_None (map (process_name w) pids) in
             map (fun pid => Popen ("ps -p " ++ pid ++ " -o comm=")) pids
             +++ [Print ("The port " ++ p
                         ++ " is occupied by process ID(s): "
                         ++ join ", " pids ++ " (" ++ join ", " names ++ ")")]
             +++ (if contains "node" names then
                    [Print "The process 'node' is running on the port and might be related to zigbee2mqtt.";
                     Print "Please try stopping the zigbee2mqtt service using: systemctl stop zigbee2mqtt"]
                  else
                    [Print "Please stop the process or release the port manually."])
         end
     end.

(** the events of the decoding step of [check] *)
Definition decode_if_any (d : bool) (r : option bytes) : list event :=
  match r with
  | Some (b :: rest) => decode_trace d (b :: rest)
  | Some [] | None => []
  end.

Ltac handler_cases_debug e :=
  cbn; destruct (is_SerialException e); cbn;
  do 3 eexists; repeat split; reflexivity.

Ltac handler_cases e s :=
  cbn; destruct (debug s); destruct (is_SerialException e); cbn;
  do 2 eexists; repeat split; reflexivity.

(** the decoder does nothing but print *)
Definition is_print (e : event) : Prop :=
  match e with Print _ => True | _ => False end.

(** ** Vocabulary of the further properties *)

(** how many times the serial port was closed *)
Fixpoint count_close (t : list event) : nat :=
  match t with
  | [] => O
  | SerialClose :: t' => S (count_close t')
  | _ :: t' => count_close t'
  end.

(** the events after the first close of the port *)
Fixpoint after_close (t : list event) : list event :=
  match t with
  | [] => []
  | SerialClose :: t' => t'
  | _ :: t' => after_close t'
  end.

(** the sizes asked of [ser.read], in order *)
Fixpoint reads (t : list event) : list nat :=
  match t with
  | [] => []
  | Read n :: t' => n :: reads t'
  | _ :: t' => reads t'
  end.

(** the exception of the first step of the exchange that raises *)
Definition exchange_failure (command : bytes) (w : World) (s : Self)
    : option exn :=
  match serial_open w (port s) (baudrate s) (timeout s) with
  | Some e => Some e
  | None =>
  match flock w with
  | Some e => Some e
  | None =>
  match reset_input_buffer w with
  | Some e => Some e
  | None =>
  match serial_write w command with
  | Some e => Some e
  | None =>
  match in_waiting w with
  | inl e => Some e
  | inr n =>
  match serial_read w (or_nat n 64) with
  | inl e => Some e
  | inr _ => None
  end end end end end end.

(** the port opens but another process holds the lock: [flock] raises an
    [OSError] *)
Definition locked_world : World :=
  mkWorld (fun _ => inr "") (fun _ _ _ => None)
    (Some (mkExn OtherException "[Errno 11] Resource temporarily unavailable"))
    None (fun _ => None) (inr 0%nat) (fun _ => inr []).

(** the exchange of [send_command], one step of the world after the other;
    [fin] closes the goal of a step that raised and of the last step *)
Ltac exchange_cases command w s fin :=
  unfold send_command, with_Serial, call_, call, finally, try_except, bind,
    self, world, print, emit, ret, raise;
  destruct (serial_open w (port s) (baudrate s) (timeout s)) as [?e|] eqn:?Ho;
    [fin|];
  destruct (flock w) as [?e|] eqn:?Hf; [fin|];
  destruct (reset_input_buffer w) as [?e|] eqn:?Hr; [fin|];
  destruct (serial_write w command) as [?e|] eqn:?Hw; [fin|];
  destruct (in_waiting w) as [?e|?n] eqn:?Hi; [fin|];
  match goal with
  | |- context [serial_read w ?k] =>
      destruct (serial_read w k) as [?e|[|?b ?resp]] eqn:?Hd
  end; fin.

(** case analysis on the handler and on the debug flag, then evaluation *)
Ltac exchange_eval s :=
  cbn; destruct (debug s); cbn;
  repeat match goal with
         | |- context [is_SerialException ?e] =>
             destruct (is_SerialException e) eqn:?
         end;
  cbn.

(** the command line without [--reset], [--version] and
    [--custom-command] *)
Definition plain_args (args : Args) : Args :=
  mkArgs (arg_port args) (arg_baudrate args) false false (arg_timeout args)
    None (arg_debug args).

(** case analysis on the membership of an event in a trace *)
Ltac in_cases Hin :=
  repeat (apply in_app_or in Hin; destruct Hin as [Hin|Hin]);
  simpl in Hin;
  repeat match type of Hin with
         | _ \/ _ => destruct Hin as [Hin|Hin]
         | False => contradiction
         end.

(** * Properties *)

(** ** The methods as trace functions *)

Lemma process_version_run (response : bytes) (chip : string) (w : World)
    (s : Self) :
  process_version response chip w s =
  (when (debug s) [Print ("Parsing response: " ++ hex response)]
   +++ parse_trace response chip, s, Ret tt).
Proof.
  unfold process_version, parse_trace, bind, self, try_except, getitem,
    print, emit, ret, raise, when.
  destruct (debug s);
    destruct (nth_error response 4); try reflexivity;
    destruct (nth_error response 5); try reflexivity;
    destruct (nth_error response 6); try reflexivity;
    destruct (nth_error response 7); try reflexivity;
    destruct (nth_error response 8); reflexivity.
Qed.

Lemma process_version_response_run (response : bytes) (w : World)
    (s : Self) :
  process_version_response response w s =
  (decode_trace (debug s) response, s, Ret tt).
Proof.
  unfold process_version_response, decode_trace, classify_trace.
  destruct response as [|b0 rest].
  - unfold bind, self, print, emit, ret, when. destruct (debug s); reflexivity.
  - set (r := b0 :: rest).
    unfold slice_from, async_report, unknown_chip_report, when.
    destruct (debug s) eqn:D;
      destruct (14 <? List.length r)%nat,
        (startswith r prefix_CC2652), (startswith r prefix_CC2530),
        (startswith r prefix_CC2538);
      unfold bind, self, print, emit, ret;
      rewrite ?D, ?process_version_run, ?D; reflexivity.
Qed.

(** ** Prefix tests *)

Lemma startswith_firstn (b p : bytes) :
  startswith b p = true <-> firstn (List.length p) b = p.
Proof.
  revert b. induction p as [|x p IH]; intros b; simpl.
  - split; reflexivity.
  - destruct b as [|y b]; simpl.
    + split; discriminate.
    + rewrite andb_true_iff, IH. split.
      * intros [E F]. apply byte_dec_bl in E. subst y. now rewrite F.
      * intros E. injection E as E F. subst y. split.
        -- now apply byte_dec_lb.
        -- exact F.
Qed.

Lemma startswith_false (b p : bytes) :
  startswith b p = false <-> firstn (List.length p) b <> p.
Proof.
  rewrite <- startswith_firstn. destruct (startswith b p); split;
    congruence.
Qed.

Lemma startswith_split (b p : bytes) :
  startswith b p = true -> b = (p ++ skipn (List.length p) b)%list.
Proof.
  intros H. apply startswith_firstn in H.
  rewrite <- H at 1. symmetry. apply firstn_skipn.
Qed.

(** ** The decoder *)

(** C1. A response of at least 14 bytes that starts with one of the three
    known prefixes (FE 0A 61 02, FE 0E 61 02, FE 10 61 02) is reported as
    the chip of that prefix (CC2652, CC2530, CC2538), and the values
    printed are the input bytes at the fixed offsets: transport version =
    byte 4, product ID = byte 5, major = byte 6, minor = byte 7,
    maintenance = byte 8, revision = bytes 9 to 13. *)
Theorem known_prefix_decodes_fields (prefix : bytes) (chip : string)
    (response : bytes) (w : World) (s : Self) :
  In (prefix, chip) known_prefixes ->
  startswith response prefix = true ->
  (14 <= List.length response)%nat ->
  process_version_response response w s =
  (when (debug s)
     [Print ("Raw response received: " ++ hex response);
      Print ("Parsing response: " ++ hex response)]
   +++ version_report chip
         (byte_at response 4) (byte_at response 5) (byte_at response 6)
         (byte_at response 7) (byte_at response 8)
         [nth 9 response x00; nth 10 response x00; nth 11 response x00;
          nth 12 response x00; nth 13 response x00]
   +++ (if (14 <? List.length response)%nat
        then async_report (skipn 14 response) else []),
   s, Ret tt).
Proof.
  intros Hin Hpre Hlen.
  rewrite process_version_response_run.
  apply startswith_split in Hpre.
  assert (Hp : List.length prefix = 4%nat).
  { simpl in Hin. destruct Hin as [E|[E|[E|[]]]]; inversion E; reflexivity. }
  rewrite Hp in Hpre.
  do 14 (destruct response as [|? response]; [simpl in Hlen; lia|]).
  simpl skipn in Hpre.
  simpl in Hin.
  destruct Hin as [E|[E|[E|[]]]]; inversion E; subst prefix chip;
    inversion Hpre; subst; destruct (debug s); reflexivity.
Qed.

Lemma known_prefix_decodes_fields_witness :
  process_version_response scenario1 silent_world (checker_on_MOD4 false)
  = (version_report "CC2652" 2 5 2 1 3 [xaa; xbb; xcc; xdd; xee],
     checker_on_MOD4 false, Ret tt).
Proof.
  apply (known_prefix_decodes_fields [xfe; x0a; x61; x02] "CC2652"
           scenario1 silent_world (checker_on_MOD4 false)).
  - simpl. left. reflexivity.
  - reflexivity.
  - simpl. lia.
Defined.

(** C2. A response longer than 14 bytes always has its bytes from offset 14
    to the end surfaced, as the last two lines of the trace, whatever the
    prefix is and whatever was parsed before. *)
Theorem trailing_data_surfaced (response : bytes) (w : World) (s : Self) :
  (14 < List.length response)%nat ->
  exists before,
    process_version_response response w s =
    (before +++ async_report (skipn 14 response), s, Ret tt).
Proof.
  intros Hlen. rewrite process_version_response_run. unfold decode_trace.
  destruct response as [|b0 rest]; [simpl in Hlen; lia|].
  apply Nat.ltb_lt in Hlen. rewrite Hlen.
  eexists. rewrite app_assoc. reflexivity.
Qed.

Lemma trailing_data_surfaced_witness :
  exists before,
    process_version_response scenario2 silent_world (checker_on_MOD4 false) =
    (before +++ async_report [x11; x22], checker_on_MOD4 false, Ret tt).
Proof.
  apply (trailing_data_surfaced scenario2 silent_world
           (checker_on_MOD4 false)).
  simpl. lia.
Defined.

(** C3, as stated, fails: a 9-byte response with the prefix of CC2652 is
    shorter than 14 bytes, yet no error is signalled; the fields are printed
    with an empty revision. *)
Lemma short_frame_not_rejected :
  startswith nine_byte_frame [xfe; x0a; x61; x02] = true
  /\ (List.length nine_byte_frame < 14)%nat
  /\ process_version_response nine_byte_frame silent_world
       (checker_on_MOD4 false)
     = (version_report "CC2652" 2 5 2 1 3 [], checker_on_MOD4 false, Ret tt)
  /\ signals_parse_error
       (trace_of (process_version_response nine_byte_frame silent_world
                    (checker_on_MOD4 false))) = false.
Proof.
  repeat split; try reflexivity. simpl. lia.
Qed.

(** C3, amended. Decoding never ends in an exception, for any input.  A
    response that starts with a known prefix and has fewer than 9 bytes
    (one of the bytes 4 to 8 is missing) has the out-of-range read caught:
    the only line printed, after the debug dumps, is the parse error. *)
Theorem short_frame_parse_error (response : bytes) (w : World) (s : Self) :
  result_of (process_version_response response w s) = Ret tt
  /\ forall prefix chip,
       In (prefix, chip) known_prefixes ->
       startswith response prefix = true ->
       (List.length response < 9)%nat ->
       process_version_response response w s =
       (when (debug s)
          [Print ("Raw response received: " ++ hex response);
           Print ("Parsing response: " ++ hex response)]
        +++ parse_error_report, s, Ret tt).
Proof.
  rewrite process_version_response_run.
  split; [reflexivity|]. intros prefix chip Hin Hpre Hlen.
  pose proof (startswith_split _ _ Hpre) as Hsplit.
  assert (Hp : List.length prefix = 4%nat).
  { simpl in Hin. destruct Hin as [E|[E|[E|[]]]]; inversion E; reflexivity. }
  rewrite Hp in Hsplit.
  destruct response as [|b0 [|b1 [|b2 [|b3 rest]]]];
    try (simpl in Hin; destruct Hin as [E|[E|[E|[]]]]; inversion E;
         subst prefix; discriminate Hsplit).
  simpl skipn in Hsplit.
  assert (Htail : (List.length rest < 5)%nat) by (simpl in Hlen; lia).
  simpl in Hin.
  destruct Hin as [E|[E|[E|[]]]]; inversion E; subst prefix chip;
    inversion Hsplit; subst;
    destruct rest as [|c4 [|c5 [|c6 [|c7 [|c8 rest]]]]];
    try (simpl in Htail; lia);
    destruct (debug s); reflexivity.
Qed.

Lemma short_frame_parse_error_witness :
  result_of (process_version_response eight_byte_frame silent_world
               (checker_on_MOD4 true)) = Ret tt
  /\ process_version_response eight_byte_frame silent_world
       (checker_on_MOD4 true)
     = ([Print "Raw response received: fe0e610202050201";
         Print "Parsing response: fe0e610202050201";
         Print "Error while parsing the response: index out of range"],
        checker_on_MOD4 true, Ret tt).
Proof.
  destruct (short_frame_parse_error eight_byte_frame silent_world
              (checker_on_MOD4 true)) as [Hret Herr].
  split; [exact Hret|].
  apply (Herr [xfe; x0e; x61; x02] "CC2530").
  - simpl. right. left. reflexivity.
  - reflexivity.
  - simpl. lia.
Defined.

(** C4. A non-empty response whose first four bytes are none of the three
    known prefixes (it may have fewer than four bytes, or exactly four) is
    reported as an unknown chip together with all of its bytes in hex, and
    the call returns normally. *)
Theorem unknown_prefix_unrecognized (response : bytes) (w : World)
    (s : Self) :
  response <> [] ->
  firstn 4 response <> [xfe; x0a; x61; x02] ->
  firstn 4 response <> [xfe; x0e; x61; x02] ->
  firstn 4 response <> [xfe; x10; x61; x02] ->
  process_version_response response w s =
  (when (debug s) [Print ("Raw response received: " ++ hex response)]
   +++ [Print "Unknown chip detected. Skipping specialized parsing.";
        Print ("Raw response: " ++ hex response)]
   +++ (if (14 <? List.length response)%nat
        then async_report (skipn 14 response) else []),
   s, Ret tt).
Proof.
  intros Hne HA HB HC. rewrite process_version_response_run.
  unfold decode_trace, classify_trace.
  destruct response as [|b0 rest]; [congruence|].
  apply (proj2 (startswith_false _ prefix_CC2652)) in HA.
  apply (proj2 (startswith_false _ prefix_CC2530)) in HB.
  apply (proj2 (startswith_false _ prefix_CC2538)) in HC.
  rewrite HA, HB, HC. reflexivity.
Qed.

Lemma unknown_prefix_unrecognized_witness :
  process_version_response scenario3 silent_world (checker_on_MOD4 false) =
  ([Print "Unknown chip detected. Skipping specialized parsing.";
    Print "Raw response: 00010203"], checker_on_MOD4 false, Ret tt).
Proof.
  apply (unknown_prefix_unrecognized scenario3 silent_world
           (checker_on_MOD4 false)); simpl; discriminate.
Defined.

(** C5. The empty response is reported as no response and the call returns
    normally: apart from the debug dump, the line "No response received." is
    the whole trace, so nothing is compared, parsed or looked up after
    offset 14. *)
Theorem empty_is_no_response (w : World) (s : Self) :
  process_version_response [] w s =
  (when (debug s) [Print "Raw response received: "]
   +++ [Print "No response received."], s, Ret tt).
Proof.
  rewrite process_version_response_run. reflexivity.
Qed.

(** decoding a list of responses one after the other *)
Lemma for_each_decode_run (prior : list bytes) (w : World) (s : Self) :
  for_each process_version_response prior w s =
  (flat_map (decode_trace (debug s)) prior, s,
   Ret (map (fun _ => tt) prior)).
Proof.
  induction prior as [|r prior IH]; [reflexivity|].
  cbn [for_each flat_map map]. unfold bind at 1.
  rewrite process_version_response_run. unfold bind at 1.
  rewrite IH. unfold ret. cbv beta iota. rewrite app_nil_r. reflexivity.
Qed.

(** C9. Decoding is a function of the response bytes (and of the debug flag
    of the checker) alone: the world and the other attributes do not enter,
    [self] is left as it was, decoding the same bytes twice in a row prints
    the same lines twice, and decoding after any earlier decodes prints what
    a first decode prints. *)
Theorem decoding_is_repeatable (response : bytes) (w w' : World)
    (s s' : Self) (prior : list bytes) :
  debug s' = debug s ->
  let t := trace_of (process_version_response response w s) in
  process_version_response response w s = (t, s, Ret tt)
  /\ process_version_response response w' s' = (t, s', Ret tt)
  /\ (process_version_response response ;;
      process_version_response response) w s = (t +++ t, s, Ret tt)
  /\ (for_each process_version_response prior ;;
      process_version_response response) w s
     = (trace_of (for_each process_version_response prior w s) +++ t,
        s, Ret tt).
Proof.
  intros Hd t. subst t.
  unfold bind. rewrite for_each_decode_run.
  rewrite !process_version_response_run, Hd. repeat split; reflexivity.
Qed.

Lemma decoding_is_repeatable_witness :
  process_version_response scenario1 silent_world (checker_on_MOD4 false)
  = (version_report "CC2652" 2 5 2 1 3 [xaa; xbb; xcc; xdd; xee],
     checker_on_MOD4 false, Ret tt)
  /\ (process_version_response scenario1 ;;
      process_version_response scenario1) silent_world
       (checker_on_MOD4 false)
     = (version_report "CC2652" 2 5 2 1 3 [xaa; xbb; xcc; xdd; xee]
        +++ version_report "CC2652" 2 5 2 1 3 [xaa; xbb; xcc; xdd; xee],
        checker_on_MOD4 false, Ret tt).
Proof.
  destruct (decoding_is_repeatable scenario1 silent_world silent_world
              (checker_on_MOD4 false) (checker_on_MOD4 false) [])
    as (H1 & _ & H2 & _).
  - reflexivity.
  - split; [exact H1 | exact H2].
Defined.

(** the lines of [parse_trace] never look like debug dumps *)
Lemma parse_trace_no_debug_line (response : bytes) (chip : string) :
  filter (fun e => negb (is_debug_line e)) (parse_trace response chip)
  = parse_trace response chip.
Proof.
  unfold parse_trace.
  destruct (nth_error response 4); [|reflexivity].
  destruct (nth_error response 5); [|reflexivity].
  destruct (nth_error response 6); [|reflexivity].
  destruct (nth_error response 7); [|reflexivity].
  destruct (nth_error response 8); reflexivity.
Qed.

Lemma classify_trace_debug (response : bytes) :
  filter (fun e => negb (is_debug_line e)) (classify_trace true response)
  = classify_trace false response.
Proof.
  unfold classify_trace.
  destruct (startswith response prefix_CC2652);
    [|destruct (startswith response prefix_CC2530);
      [|destruct (startswith response prefix_CC2538)]];
    try (rewrite filter_app, parse_trace_no_debug_line; reflexivity).
  reflexivity.
Qed.

Lemma decode_trace_debug (response : bytes) :
  filter (fun e => negb (is_debug_line e)) (decode_trace true response)
  = decode_trace false response.
Proof.
  unfold decode_trace. rewrite filter_app.
  destruct response as [|b0 rest]; [reflexivity|].
  rewrite filter_app, classify_trace_debug.
  destruct (14 <? List.length (b0 :: rest))%nat; reflexivity.
Qed.

(** every debug line of a decode is a hex dump of the whole response *)
Lemma decode_trace_debug_lines (d : bool) (response : bytes) (e : event) :
  In e (decode_trace d response) ->
  is_debug_line e = true ->
  e = Print ("Raw response received: " ++ hex response)
  \/ e = Print ("Parsing response: " ++ hex response).
Proof.
  unfold decode_trace, classify_trace, parse_trace, when.
  intros Hin Hdbg.
  repeat (apply in_app_or in Hin; destruct Hin as [Hin|Hin]);
    repeat match type of Hin with
           | context [if ?b then _ else _] => destruct b
           | context [match ?x with _ => _ end] => destruct x
           end;
    simpl in Hin;
    repeat (apply in_app_or in Hin; destruct Hin as [Hin|Hin]);
    simpl in Hin;
    repeat match type of Hin with
           | _ \/ _ => destruct Hin as [Hin|Hin]
           | False => contradiction
           end;
    subst e; auto; try discriminate Hdbg.
Qed.

(** ** The orchestration *)

Lemma writes_app (t1 t2 : list event) :
  writes (t1 +++ t2) = (writes t1 ++ writes t2)%list.
Proof.
  induction t1 as [|e t1 IH]; [reflexivity|].
  destruct e; simpl; rewrite IH; reflexivity.
Qed.

Lemma send_command_run (command : bytes) (w : World) (s : Self) :
  exists t r,
    send_command command w s = (t, s, Ret r)
    /\ writes t = (if port_opens w s then [command] else [])
    /\ filter is_debug_line t
       = (if debug s && port_opens w s
          then [Print ("Sending command: " ++ hex command)] else []).
Proof.
  unfold send_command, with_Serial, call_, call, finally, try_except, bind,
    self, world, print, emit, ret, raise, port_opens.
  destruct (serial_open w (port s) (baudrate s) (timeout s)) eqn:Ho;
    [handler_cases e s|].
  destruct (flock w) eqn:Hf;
    [handler_cases e s|].
  destruct (reset_input_buffer w) eqn:Hr;
    [handler_cases e s|].
  destruct (serial_write w command) eqn:Hw;
    [handler_cases e s|].
  destruct (in_waiting w) as [e|n] eqn:Hi;
    [handler_cases e s|].
  destruct (serial_read w (or_nat n 64)) as [e|resp] eqn:Hd;
    [handler_cases e s|].
  cbn; destruct (debug s); destruct resp; cbn; do 2 eexists; repeat split;
    reflexivity.
Qed.

Lemma get_process_name_by_pid_run (pid : string) (w : World) (s : Self) :
  get_process_name_by_pid pid w s =
  ([Popen ("ps -p " ++ pid ++ " -o comm=")], s, Ret (process_name w pid)).
Proof.
  unfold get_process_name_by_pid, process_name, os_popen_read, call,
    try_except, bind, world, emit, ret, raise.
  destruct (popen_read w ("ps -p " ++ pid ++ " -o comm=")); reflexivity.
Qed.

Lemma process_names_run (pids : list string) (w : World) (s : Self) :
  for_each get_process_name_by_pid pids w s =
  (map (fun pid => Popen ("ps -p " ++ pid ++ " -o comm=")) pids, s,
   Ret (map (process_name w) pids)).
Proof.
  induction pids as [|pid pids IH]; [reflexivity|].
  cbn [for_each map]. unfold bind at 1.
  rewrite get_process_name_by_pid_run.
  unfold bind at 1. rewrite IH. unfold ret. cbv beta iota.
  rewrite app_nil_r. reflexivity.
Qed.

Lemma check_port_availability_run (w : World) (s : Self) :
  check_port_availability w s =
  (availability_trace w (port s), s, Ret (fuser_reports_free w s)).
Proof.
  unfold check_port_availability, availability_trace, fuser_reports_free,
    os_popen_read, call.
  unfold bind at 1. unfold self at 1. cbv beta iota.
  unfold try_except. unfold bind at 1 2 3. unfold emit at 1, world at 1.
  cbv beta iota.
  destruct (popen_read w ("fuser " ++ port s)) as [e|out];
    [reflexivity|].
  unfold ret at 1. cbv beta iota.
  destruct (strip out) as [|c rest] eqn:Hs; [reflexivity|].
  unfold bind at 1. rewrite process_names_run.
  destruct (contains "node"
              (filter_None (map (process_name w) (split (String c rest)))))
    eqn:Hnode;
    unfold bind, print, emit, ret; cbv beta iota; rewrite ?Hnode;
    cbv beta iota; rewrite ?app_nil_r; reflexivity.
Qed.

(** the availability check opens no serial port and prints no debug line *)
Lemma availability_trace_inspects (w : World) (p : string) :
  filter is_exchange (availability_trace w p) = []
  /\ filter is_debug_line (availability_trace w p) = [].
Proof.
  assert (Hps : forall pids,
    filter is_exchange
      (map (fun pid => Popen ("ps -p " ++ pid ++ " -o comm=")) pids) = []
    /\ filter is_debug_line
         (map (fun pid => Popen ("ps -p " ++ pid ++ " -o comm=")) pids) = []).
  { induction pids as [|pid pids IH]; [split; reflexivity|exact IH]. }
  unfold availability_trace.
  destruct (popen_read w ("fuser " ++ p)) as [e|out];
    [split; reflexivity|].
  destruct (strip out) as [|c rest]; [split; reflexivity|].
  cbn [filter is_exchange is_debug_line app].
  rewrite !filter_app.
  rewrite (proj1 (Hps _)), (proj2 (Hps _)).
  destruct (contains "node" _); split; reflexivity.
Qed.

Lemma only_prints (t : list event) :
  Forall is_print t -> writes t = [] /\ filter is_exchange t = [].
Proof.
  induction 1 as [|e t He _ [IHw IHx]]; [split; reflexivity|].
  destruct e; try contradiction. simpl. auto.
Qed.

Lemma decode_trace_prints (d : bool) (response : bytes) :
  Forall is_print (decode_trace d response).
Proof.
  unfold decode_trace, classify_trace, parse_trace, when.
  repeat (apply Forall_app; split);
    repeat match goal with
           | |- context [if ?b then _ else _] => destruct b
           | |- context [match ?x with _ => _ end] => destruct x
           end;
    repeat (apply Forall_app; split);
    repeat constructor.
Qed.

(** the three steps of [check] *)
Lemma check_steps (w : World) (s : Self) (ts : list event)
    (r : option bytes) :
  send_command version_command w s = (ts, s, Ret r) ->
  check w s
  = (if fuser_reports_free w s
     then (availability_trace w (port s) +++ ts
           +++ decode_if_any (debug s) r, s, Ret tt)
     else (availability_trace w (port s), s, SysExit 1%Z)).
Proof.
  intros Hs. unfold check. unfold bind at 1.
  rewrite check_port_availability_run.
  destruct (fuser_reports_free w s).
  - unfold bind at 1. cbn [negb]. unfold ret at 1. cbv beta iota.
    unfold bind at 1. rewrite Hs.
    destruct r as [[|b0 rest]|]; rewrite ?process_version_response_run;
      unfold ret; cbn [app decode_if_any]; reflexivity.
  - unfold bind, sys_exit. cbn [negb]. cbv beta iota.
    rewrite app_nil_r. reflexivity.
Qed.

(** [check] stops after the availability check when the port is not free,
    and otherwise goes on with one exchange and the decoding *)
Lemma check_run (w : World) (s : Self) :
  exists t_avail t_rest,
    check_port_availability w s = (t_avail, s, Ret (fuser_reports_free w s))
    /\ filter is_exchange t_avail = []
    /\ check w s
       = (if fuser_reports_free w s
          then (t_avail +++ t_rest, s, Ret tt)
          else (t_avail, s, SysExit 1%Z))
    /\ writes t_rest = (if port_opens w s then [version_command] else []).
Proof.
  destruct (send_command_run version_command w s) as (ts & r & Hs & Hw & _).
  exists (availability_trace w (port s)), (ts +++ decode_if_any (debug s) r).
  split; [apply check_port_availability_run|].
  split; [apply availability_trace_inspects|].
  split; [apply (check_steps w s ts r Hs)|].
  rewrite writes_app, Hw.
  replace (writes (decode_if_any (debug s) r)) with (@nil bytes);
    [apply app_nil_r|].
  destruct r as [[|b0 rest]|]; try reflexivity.
  symmetry. apply only_prints, decode_trace_prints.
Qed.

Lemma main_run (args : Args) (w : World) :
  main args w =
  (when (arg_reset args) [Print "Sending reset command..."]
   +++ trace_of (check w (checker_of args)),
   result_of (check w (checker_of args))).
Proof.
  unfold main. fold (checker_of args).
  destruct (check_run w (checker_of args)) as (ta & tr & _ & _ & Hc & _).
  destruct (arg_reset args); cbn [when orb negb app].
  - unfold bind, print, emit. rewrite Hc.
    destruct (fuser_reports_free w (checker_of args)); reflexivity.
  - replace (if arg_version args || true then check else ret tt)
      with check by (destruct (arg_version args); reflexivity).
    rewrite Hc.
    destruct (fuser_reports_free w (checker_of args)); reflexivity.
Qed.

(** C6. The process ends with exit code 1 exactly when the availability
    check returns [False], which it does exactly when [fuser] could not be
    run or printed something (the port is held); in every other run, whatever
    the module answers or fails to answer, [main] returns and the exit code
    is 0. *)
Theorem exit_code_one_iff_port_unavailable (args : Args) (w : World) :
  result_of (check_port_availability w (checker_of args))
  = Ret (fuser_reports_free w (checker_of args))
  /\ snd (main args w)
     = (if fuser_reports_free w (checker_of args)
        then Ret tt else SysExit 1%Z)
  /\ (exit_code (snd (main args w)) = 1%Z
      <-> result_of (check_port_availability w (checker_of args))
          = Ret false)
  /\ (exit_code (snd (main args w)) = 0%Z
      <-> result_of (check_port_availability w (checker_of args))
          = Ret true).
Proof.
  rewrite main_run. cbn [snd].
  destruct (check_run w (checker_of args)) as (ta & tr & Ha & _ & Hc & _).
  rewrite Ha, Hc. unfold result_of.
  destruct (fuser_reports_free w (checker_of args)); cbn [snd exit_code];
    repeat split; intros; congruence.
Qed.

(** C7. When the availability check returns [False] (the port is held, or
    the inspection failed), [check] ends in [sys.exit(1)] after the events
    of that check and nothing else: the serial port is not opened, nothing
    is written and nothing is read. *)
Theorem unavailable_port_no_exchange (w : World) (s : Self) :
  result_of (check_port_availability w s) = Ret false ->
  check w s = (trace_of (check_port_availability w s), s, SysExit 1%Z)
  /\ filter is_exchange (trace_of (check w s)) = []
  /\ writes (trace_of (check w s)) = [].
Proof.
  intros Hfalse.
  destruct (check_run w s) as (ta & tr & Ha & Hx & Hc & _).
  rewrite Ha in Hfalse. unfold result_of in Hfalse. cbn [snd] in Hfalse.
  assert (Hfree : fuser_reports_free w s = false) by congruence.
  rewrite Hc, Ha, Hfree. unfold trace_of. cbn [fst].
  repeat split; [exact Hx|].
  clear - Hx. induction ta as [|e ta IH]; [reflexivity|].
  destruct e; simpl in *; try discriminate; auto.
Qed.

Lemma unavailable_port_no_exchange_witness :
  check scenario5_world (checker_on_MOD4 false)
  = ([Popen "fuser /dev/ttyMOD4"; Popen "ps -p 1234 -o comm=";
      Print "The port /dev/ttyMOD4 is occupied by process ID(s): 1234 (node)";
      Print "The process 'node' is running on the port and might be related to zigbee2mqtt.";
      Print "Please try stopping the zigbee2mqtt service using: systemctl stop zigbee2mqtt"],
     checker_on_MOD4 false, SysExit 1%Z)
  /\ filter is_exchange
       (trace_of (check scenario5_world (checker_on_MOD4 false))) = []
  /\ writes (trace_of (check scenario5_world (checker_on_MOD4 false))) = [].
Proof.
  apply (unavailable_port_no_exchange scenario5_world
           (checker_on_MOD4 false)).
  reflexivity.
Defined.

(** C8. The bytes written to the serial port in a run of [main] are the one
    command FE 00 21 02 23, written once, when the port is free and opens;
    no other run writes anything.  So in every run at most one write
    happens, and whatever is written is that command: there is no retry and
    no second command. *)
Theorem single_version_command (args : Args) (w : World) :
  writes (fst (main args w))
  = (if fuser_reports_free w (checker_of args)
        && port_opens w (checker_of args)
     then [[xfe; x00; x21; x02; x23]] else [])
  /\ (List.length (writes (fst (main args w))) <= 1)%nat
  /\ forall data,
       In data (writes (fst (main args w))) ->
       data = [xfe; x00; x21; x02; x23].
Proof.
  assert (H : writes (fst (main args w))
              = (if fuser_reports_free w (checker_of args)
                    && port_opens w (checker_of args)
                 then [[xfe; x00; x21; x02; x23]] else [])).
  { rewrite main_run. cbn [fst]. rewrite writes_app.
    replace (writes (when (arg_reset args)
                       [Print "Sending reset command..."]))
      with (@nil bytes) by (destruct (arg_reset args); reflexivity).
    cbn [app].
    destruct (check_run w (checker_of args)) as (ta & tr & _ & Hx & Hc & Hw).
    rewrite Hc.
    assert (Hta : writes ta = []).
    { clear - Hx. induction ta as [|e ta IH]; [reflexivity|].
      destruct e; simpl in *; try discriminate; auto. }
    destruct (fuser_reports_free w (checker_of args)); unfold trace_of;
      cbn [fst andb].
    - rewrite writes_app, Hta, Hw. reflexivity.
    - exact Hta. }
  rewrite H.
  destruct (fuser_reports_free w (checker_of args)
            && port_opens w (checker_of args)).
  - repeat split; [simpl; lia|].
    intros data [E|[]]. now subst data.
  - repeat split; [simpl; lia|]. intros data [].
Qed.

(** a run on a free port with a module that answers *)
Example default_run :
  main default_args answering_world
  = ([Popen "fuser /dev/ttyMOD4";
      SerialOpen "/dev/ttyMOD4" 115200 1; Flock; ResetInputBuffer;
      Write [xfe; x00; x21; x02; x23]; Sleep500ms; InWaiting; Read 14;
      SerialClose]
     +++ version_report "CC2652" 2 5 2 1 3 [xaa; xbb; xcc; xdd; xee],
     Ret tt).
Proof. reflexivity. Qed.

(** a run on a free port with a silent module: 64 bytes are asked for *)
Example silent_run :
  main default_args silent_world
  = ([Popen "fuser /dev/ttyMOD4";
      SerialOpen "/dev/ttyMOD4" 115200 1; Flock; ResetInputBuffer;
      Write [xfe; x00; x21; x02; x23]; Sleep500ms; InWaiting; Read 64;
      Print "No response received. The module might not be working.";
      SerialClose],
     Ret tt).
Proof. reflexivity. Qed.

(** ** The debug flag *)

Lemma keep_non_debug_all (t : list event) :
  filter is_debug_line t = [] ->
  filter (fun e => negb (is_debug_line e)) t = t.
Proof.
  induction t as [|e t IH]; [reflexivity|]. simpl.
  destruct (is_debug_line e); [discriminate|].
  intros H. simpl. now rewrite IH.
Qed.

(** the exchange with and without the debug flag *)
Lemma send_command_debug (command : bytes) (w : World) (s : Self) :
  exists t_on t_off r,
    send_command command w (with_debug true s)
    = (t_on, with_debug true s, Ret r)
    /\ send_command command w (with_debug false s)
       = (t_off, with_debug false s, Ret r)
    /\ filter (fun e => negb (is_debug_line e)) t_on = t_off.
Proof.
  unfold send_command, with_Serial, call_, call, finally, try_except, bind,
    self, world, print, emit, ret, raise.
  cbn [with_debug port baudrate timeout debug].
  destruct (serial_open w (port s) (baudrate s) (timeout s)) eqn:Ho;
    [handler_cases_debug e|].
  destruct (flock w) eqn:Hf; [handler_cases_debug e|].
  destruct (reset_input_buffer w) eqn:Hr; [handler_cases_debug e|].
  destruct (serial_write w command) eqn:Hw; [handler_cases_debug e|].
  destruct (in_waiting w) as [e|n] eqn:Hi; [handler_cases_debug e|].
  destruct (serial_read w (or_nat n 64)) as [e|resp] eqn:Hd;
    [handler_cases_debug e|].
  cbn; destruct resp; cbn; do 3 eexists; repeat split; reflexivity.
Qed.

(** C10. The debug flag changes nothing of a decode but its hex dumps:
    removing the debug lines from the trace of a decode with the flag set
    gives exactly the trace of the decode without it (the same chip, field
    values and trailing data, in the same order), both decodes return
    normally, and each removed line is a hex dump of the response.  The
    same holds for a whole run of [check]: the events other than debug
    lines and the way the run ends do not depend on the flag. *)
Theorem debug_only_adds_hex_dumps (response : bytes) (w : World) (s : Self) :
  filter (fun e => negb (is_debug_line e))
    (trace_of (process_version_response response w (with_debug true s)))
  = trace_of (process_version_response response w (with_debug false s))
  /\ result_of (process_version_response response w (with_debug true s))
     = result_of (process_version_response response w (with_debug false s))
  /\ (forall e,
        In e (trace_of (process_version_response response w
                          (with_debug true s))) ->
        is_debug_line e = true ->
        e = Print ("Raw response received: " ++ hex response)
        \/ e = Print ("Parsing response: " ++ hex response))
  /\ filter (fun e => negb (is_debug_line e))
       (trace_of (check w (with_debug true s)))
     = trace_of (check w (with_debug false s))
  /\ result_of (check w (with_debug true s))
     = result_of (check w (with_debug false s)).
Proof.
  rewrite !process_version_response_run. unfold trace_of, result_of.
  cbn [fst snd with_debug debug].
  split; [apply decode_trace_debug|].
  split; [reflexivity|].
  split; [intros e; apply decode_trace_debug_lines|].
  destruct (send_command_debug version_command w s)
    as (t_on & t_off & r & Hon & Hoff & Hf).
  rewrite (check_steps _ _ _ _ Hon), (check_steps _ _ _ _ Hoff).
  change (fuser_reports_free w (with_debug true s))
    with (fuser_reports_free w s).
  change (fuser_reports_free w (with_debug false s))
    with (fuser_reports_free w s).
  cbn [with_debug port debug].
  pose proof (keep_non_debug_all _
                (proj2 (availability_trace_inspects w (port s)))) as Ha.
  destruct (fuser_reports_free w s); cbn [fst snd].
  - split; [|reflexivity].
    rewrite !filter_app, Ha, Hf. do 2 f_equal.
    destruct r as [[|b0 rest]|]; try reflexivity.
    apply decode_trace_debug.
  - split; [exact Ha|reflexivity].
Qed.

(** * Further properties *)

(** ** send_command *)

(** X1. [send_command] closes the serial port exactly once in every run in
    which it opened it, also when a later step raises, and does nothing to
    the port after the close; when the port does not open, nothing is
    closed. *)
Theorem send_command_closes_what_it_opens (command : bytes) (w : World)
    (s : Self) :
  count_close (trace_of (send_command command w s))
  = (match serial_open w (port s) (baudrate s) (timeout s) with
     | None => 1
     | Some _ => 0
     end)%nat
  /\ filter is_exchange (after_close (trace_of (send_command command w s)))
     = [].
Proof.
  exchange_cases command w s ltac:(exchange_eval s; split; reflexivity).
Qed.

(** X2. [send_command] never raises and leaves [self] alone.  It returns
    either [None] or a non-empty byte string, and it returns the bytes
    [resp] exactly when no step of the exchange raised and [resp] is the
    non-empty answer of the read; every failure and the empty answer give
    [None]. *)
Theorem send_command_answer (command : bytes) (w : World) (s : Self) :
  self_of (send_command command w s) = s
  /\ (result_of (send_command command w s) = Ret None
      \/ exists b rest,
           result_of (send_command command w s) = Ret (Some (b :: rest)))
  /\ forall resp,
       result_of (send_command command w s) = Ret (Some resp)
       <-> (exchange_failure command w s = None
            /\ resp <> []
            /\ exists n,
                 in_waiting w = inr n
                 /\ serial_read w (or_nat n 64) = inr resp).
Proof.
  unfold exchange_failure, self_of, result_of.
  exchange_cases command w s
    ltac:(exchange_eval s;
          (split; [reflexivity|]);
          (split; [first [left; reflexivity | right; eauto]|]);
          intros resp0;
          (split;
           [ intros H; inversion H; subst; repeat split; eauto; discriminate
           | intros (H1 & H2 & n' & H3 & H4); congruence ])).
Qed.

(** X3. When a step of the exchange raises, [send_command] returns [None]
    and the last thing it does is to print the message of that exception:
    after "Error: " for a [SerialException], after "Unexpected error: " for
    any other exception. *)
Theorem send_command_reports_failure (command : bytes) (w : World)
    (s : Self) (e : exn) :
  exchange_failure command w s = Some e ->
  exists before,
    send_command command w s
    = (before
       +++ [Print ((if is_SerialException e then "Error: "
                    else "Unexpected error: ") ++ exn_msg e)],
       s, Ret None).
Proof.
  unfold exchange_failure. intros H. revert H.
  exchange_cases command w s
    ltac:(intros H; try discriminate H; injection H as H; subst;
          exchange_eval s;
          match goal with
          | |- exists t, (?tr, _, _) = _ => exists (removelast tr)
          end; reflexivity).
Qed.

Lemma send_command_reports_failure_witness :
  exists before,
    send_command version_command locked_world (checker_on_MOD4 false)
    = (before
       +++ [Print "Unexpected error: [Errno 11] Resource temporarily unavailable"],
       checker_on_MOD4 false, Ret None).
Proof.
  apply (send_command_reports_failure version_command locked_world
           (checker_on_MOD4 false)
           (mkExn OtherException
              "[Errno 11] Resource temporarily unavailable")).
  reflexivity.
Defined.

(** X4. [send_command] reads from the port at most once, and never asks for
    zero bytes: the size is the number of bytes waiting, or 64 when none is
    waiting. *)
Theorem send_command_reads_once (command : bytes) (w : World) (s : Self) :
  (List.length (reads (trace_of (send_command command w s))) <= 1)%nat
  /\ forall k,
       In k (reads (trace_of (send_command command w s))) ->
       (1 <= k)%nat
       /\ exists n,
            in_waiting w = inr n
            /\ k = (if Nat.eqb n 0 then 64 else n)%nat.
Proof.
  exchange_cases command w s
    ltac:(exchange_eval s;
          (split; [simpl; lia|]);
          intros k Hk; simpl in Hk;
          repeat match type of Hk with
                 | _ \/ _ => destruct Hk as [Hk|Hk]
                 | False => contradiction
                 end;
          subst k;
          (split; [match goal with n : nat |- _ => destruct n; simpl; lia end
                  |eexists; split;
                   [reflexivity
                   |match goal with n : nat |- _ => destruct n; reflexivity
                    end]])).
Qed.

(** ** check_port_availability *)








(** X6. The availability check never touches the serial port, never raises
    and leaves [self] alone; it always starts by running [fuser] on the
    port.  When the port is free it does nothing else and prints nothing;
    when [fuser] itself raises, no [ps] is run: the check prints the message
    of the exception and answers [False]. *)
Theorem availability_check_inspects_only (w : World) (s : Self) :
  exists free rest,
    check_port_availability w s
    = (Popen ("fuser " ++ port s) :: rest, s, Ret free)
    /\ filter is_exchange rest = []
    /\ (free = true -> rest = [])
    /\ (forall e,
          popen_read w ("fuser " ++ port s) = inl e ->
          free = false
          /\ rest = [Print ("Error checking port availability: "
                            ++ exn_msg e)]).
Proof.
  rewrite check_port_availability_run.
  pose proof (proj1 (availability_trace_inspects w (port s))) as Hx.
  unfold availability_trace, fuser_reports_free in *.
  do 2 eexists. split; [reflexivity|].
  split; [exact Hx|].
  destruct (popen_read w ("fuser " ++ port s)) as [e|out].
  - split; [discriminate|]. intros e' E. injection E as E. subst e'. auto.
  - split; [|discriminate].
    destruct (strip out); [reflexivity|discriminate].
Qed.




(** ** The decoder, further *)



(** X9. A response with a known prefix and 9 to 13 bytes is decoded without
    any error: the five one-byte fields are printed, and the revision is
    the bytes that remain from offset 9 on, fewer than five and possibly
    none.  Nothing says that the frame was short. *)
Theorem short_revision_is_clipped (prefix : bytes) (chip : string)
    (response : bytes) (w : World) (s : Self) :
  In (prefix, chip) known_prefixes ->
  startswith response prefix = true ->
  (9 <= List.length response < 14)%nat ->
  process_version_response response w s =
  (when (debug s)
     [Print ("Raw response received: " ++ hex response);
      Print ("Parsing response: " ++ hex response)]
   +++ version_report chip
         (byte_at response 4) (byte_at response 5) (byte_at response 6)
         (byte_at response 7) (byte_at response 8) (skipn 9 response),
   s, Ret tt)
  /\ (List.length (skipn 9 response) < 5)%nat
  /\ signals_parse_error
       (trace_of (process_version_response response w s)) = false.
Proof.
  intros Hin Hpre [Hlo Hhi].
  rewrite process_version_response_run.
  apply startswith_split in Hpre.
  assert (Hp : List.length prefix = 4%nat).
  { simpl in Hin. destruct Hin as [E|[E|[E|[]]]]; inversion E; reflexivity. }
  rewrite Hp in Hpre.
  do 9 (destruct response as [|? response]; [simpl in Hlo; lia|]).
  simpl skipn in Hpre. simpl in Hin.
  assert (Htail : (List.length response < 5)%nat) by (simpl in Hhi; lia).
  destruct response as [|c9 [|c10 [|c11 [|c12 [|c13 rest]]]]];
    try (simpl in Htail; lia);
    (destruct Hin as [E|[E|[E|[]]]]; inversion E; subst prefix chip;
     inversion Hpre; subst; destruct (debug s);
     repeat split; try reflexivity; simpl; lia).
Qed.

Lemma short_revision_is_clipped_witness :
  process_version_response nine_byte_frame silent_world
    (checker_on_MOD4 true)
  = ([Print "Raw response received: fe0a61020205020103";
      Print "Parsing response: fe0a61020205020103"]
     +++ version_report "CC2652" 2 5 2 1 3 [],
     checker_on_MOD4 true, Ret tt)
  /\ (List.length (skipn 9 nine_byte_frame) < 5)%nat
  /\ signals_parse_error
       (trace_of (process_version_response nine_byte_frame silent_world
                    (checker_on_MOD4 true))) = false.
Proof.
  apply (short_revision_is_clipped [xfe; x0a; x61; x02] "CC2652"
           nine_byte_frame silent_world (checker_on_MOD4 true)).
  - simpl. left. reflexivity.
  - reflexivity.
  - simpl. lia.
Defined.

(** X10. No trailing data is announced when there is none: for a response
    of at most 14 bytes the line that announces asynchronous data is not
    printed. *)
Theorem no_async_report_without_trailing_bytes (response : bytes)
    (w : World) (s : Self) :
  (List.length response <= 14)%nat ->
  ~ In (Print "Additional asynchronous data detected. Skipping:")
       (trace_of (process_version_response response w s)).
Proof.
  intros Hlen. rewrite process_version_response_run.
  unfold trace_of. cbn [fst].
  unfold decode_trace, classify_trace, parse_trace, when.
  assert (Hlt : (14 <? List.length response)%nat = false)
    by (apply Nat.ltb_ge; exact Hlen).
  intros Hin.
  destruct response as [|b0 rest].
  - destruct (debug s); simpl in Hin;
      repeat match type of Hin with
             | _ \/ _ => destruct Hin as [Hin|Hin]
             | False => contradiction
             end; discriminate Hin.
  - rewrite Hlt in Hin.
    repeat (apply in_app_or in Hin; destruct Hin as [Hin|Hin]);
      repeat match type of Hin with
             | context [if ?b then _ else _] => destruct b
             | context [match ?x with _ => _ end] => destruct x
             end;
      simpl in Hin;
      repeat (apply in_app_or in Hin; destruct Hin as [Hin|Hin]);
      simpl in Hin;
      repeat match type of Hin with
             | _ \/ _ => destruct Hin as [Hin|Hin]
             | False => contradiction
             end;
      discriminate Hin.
Qed.

Lemma no_async_report_without_trailing_bytes_witness :
  ~ In (Print "Additional asynchronous data detected. Skipping:")
       (trace_of (process_version_response scenario1 silent_world
                    (checker_on_MOD4 true))).
Proof.
  apply (no_async_report_without_trailing_bytes scenario1 silent_world
           (checker_on_MOD4 true)).
  simpl. lia.
Defined.

(** X11. Trailing bytes do not change what is decoded: without the debug
    dumps, a response with a known prefix prints what its first 14 bytes
    alone print, followed by the report of the trailing bytes when there
    are any. *)
Theorem trailing_bytes_leave_fields_alone (prefix : bytes) (chip : string)
    (response : bytes) (w : World) (s : Self) :
  In (prefix, chip) known_prefixes ->
  startswith response prefix = true ->
  debug s = false ->
  process_version_response response w s =
  (trace_of (process_version_response (firstn 14 response) w s)
   +++ (if (14 <? List.length response)%nat
        then async_report (skipn 14 response) else []),
   s, Ret tt).
Proof.
  intros Hin Hpre Hd.
  rewrite !process_version_response_run, Hd. unfold trace_of. cbn [fst].
  apply startswith_split in Hpre.
  assert (Hp : List.length prefix = 4%nat).
  { simpl in Hin. destruct Hin as [E|[E|[E|[]]]]; inversion E; reflexivity. }
  rewrite Hp in Hpre.
  destruct response as [|b0 [|b1 [|b2 [|b3 rest]]]];
    try (simpl in Hin; destruct Hin as [E|[E|[E|[]]]]; inversion E;
         subst prefix; discriminate Hpre).
  simpl skipn in Hpre. simpl in Hin.
  destruct Hin as [E|[E|[E|[]]]]; inversion E; subst prefix chip;
    inversion Hpre; subst;
    destruct rest as [|c4 [|c5 [|c6 [|c7 [|c8 [|c9 [|c10 [|c11 [|c12
                     [|c13 rest]]]]]]]]]];
    reflexivity.
Qed.

Lemma trailing_bytes_leave_fields_alone_witness :
  process_version_response scenario2 silent_world (checker_on_MOD4 false)
  = (version_report "CC2652" 2 5 2 1 3 [xaa; xbb; xcc; xdd; xee]
     +++ async_report [x11; x22],
     checker_on_MOD4 false, Ret tt).
Proof.
  apply (trailing_bytes_leave_fields_alone [xfe; x0a; x61; x02] "CC2652"
           scenario2 silent_world (checker_on_MOD4 false)).
  - simpl. left. reflexivity.
  - reflexivity.
  - reflexivity.
Defined.

(** ** check and main, further *)

(** the attributes [send_command] reads *)
Lemma send_command_attributes (command : bytes) (w : World) (s s' : Self) :
  port s' = port s ->
  baudrate s' = baudrate s ->
  timeout s' = timeout s ->
  debug s' = debug s ->
  send_command command w s'
  = (trace_of (send_command command w s), s',
     result_of (send_command command w s)).
Proof.
  intros Hp Hb Ht Hd.
  unfold send_command at 1. unfold bind at 1. unfold self at 1.
  cbv beta iota. rewrite Hp, Hb, Ht, Hd.
  unfold trace_of, result_of.
  exchange_cases command w s ltac:(exchange_eval s; reflexivity).
Qed.

(** the attributes [check] reads *)
Lemma check_attributes (w : World) (s s' : Self) :
  port s' = port s ->
  baudrate s' = baudrate s ->
  timeout s' = timeout s ->
  debug s' = debug s ->
  trace_of (check w s') = trace_of (check w s)
  /\ result_of (check w s') = result_of (check w s).
Proof.
  intros Hp Hb Ht Hd.
  destruct (send_command_run version_command w s) as (ts & r & Hs & _).
  pose proof (send_command_attributes version_command w s s' Hp Hb Ht Hd)
    as Hs'.
  rewrite Hs in Hs'. unfold trace_of, result_of in Hs'. cbn [fst snd] in Hs'.
  rewrite (check_steps _ _ _ _ Hs), (check_steps _ _ _ _ Hs').
  unfold fuser_reports_free. rewrite Hp, Hd.
  destruct (popen_read w ("fuser " ++ port s)) as [e|out];
    [split; reflexivity|].
  destruct (strip out); split; reflexivity.
Qed.

(** X12. [main] never sends anything but the version query, whatever the
    flags: [--version] and [--custom-command] change nothing at all, and
    [--reset] only adds the line "Sending reset command..." in front of
    the same run (no reset command is written to the module). *)
Theorem main_flags (args : Args) (w : World) :
  main args w
  = (when (arg_reset args) [Print "Sending reset command..."]
     +++ fst (main (plain_args args) w),
     snd (main (plain_args args) w))
  /\ writes (fst (main args w)) = writes (fst (main (plain_args args) w)).
Proof.
  assert (H : main args w
              = (when (arg_reset args) [Print "Sending reset command..."]
                 +++ fst (main (plain_args args) w),
                 snd (main (plain_args args) w))).
  { rewrite !main_run. cbn [fst snd plain_args arg_reset when app].
    destruct (check_attributes w (checker_of (plain_args args))
                (checker_of args)) as [Ht Hr]; try reflexivity.
    rewrite Ht, Hr. reflexivity. }
  split; [exact H|].
  rewrite H. cbn [fst]. rewrite writes_app.
  destruct (arg_reset args); reflexivity.
Qed.

Lemma send_command_no_decoder_line (command : bytes) (w : World)
    (s : Self) :
  ~ In (Print "No response received.")
       (trace_of (send_command command w s)).
Proof.
  unfold trace_of.
  exchange_cases command w s
    ltac:(exchange_eval s; intros Hin; in_cases Hin; discriminate Hin).
Qed.

Lemma availability_no_decoder_line (w : World) (p : string) :
  ~ In (Print "No response received.") (availability_trace w p).
Proof.
  unfold availability_trace. intros [H|H]; [discriminate H|].
  destruct (popen_read w ("fuser " ++ p)) as [e|out].
  - in_cases H. discriminate H.
  - destruct (strip out) as [|c rest]; [destruct H|].
    cbv zeta in H. apply in_app_or in H. destruct H as [H|H].
    + apply in_map_iff in H. destruct H as (pid & H & _). discriminate H.
    + destruct (contains "node" _); in_cases H; discriminate H.
Qed.

Lemma decode_no_decoder_line (d : bool) (b0 : byte) (rest : bytes) :
  ~ In (Print "No response received.") (decode_trace d (b0 :: rest)).
Proof.
  unfold decode_trace, classify_trace, parse_trace, when. intros Hin.
  repeat (apply in_app_or in Hin; destruct Hin as [Hin|Hin]);
    repeat match type of Hin with
           | context [if ?b then _ else _] => destruct b
           | context [match ?x with _ => _ end] => destruct x
           end;
    in_cases Hin; discriminate Hin.
Qed.

(** X13. In a run of [main] the decoder never sees an empty response: its
    line "No response received." is never printed.  A silent module is
    reported by [send_command] alone, with its own, longer line. *)
Theorem main_never_prints_decoder_no_response (args : Args) (w : World) :
  ~ In (Print "No response received.") (fst (main args w)).
Proof.
  rewrite main_run. cbn [fst]. intros Hin.
  apply in_app_or in Hin. destruct Hin as [Hin|Hin].
  - destruct (arg_reset args); in_cases Hin. discriminate Hin.
  - destruct (send_command_run version_command w (checker_of args))
      as (ts & r & Hs & _).
    pose proof (send_command_no_decoder_line version_command w
                  (checker_of args)) as Hts.
    rewrite Hs in Hts. unfold trace_of in Hts. cbn [fst] in Hts.
    rewrite (check_steps _ _ _ _ Hs) in Hin. unfold trace_of in Hin.
    destruct (fuser_reports_free w (checker_of args)); cbn [fst] in Hin.
    + apply in_app_or in Hin. destruct Hin as [Hin|Hin];
        [exact (availability_no_decoder_line _ _ Hin)|].
      apply in_app_or in Hin. destruct Hin as [Hin|Hin];
        [exact (Hts Hin)|].
      destruct r as [[|b0 rest]|]; try destruct Hin.
      exact (decode_no_decoder_line _ _ _ Hin).
    + exact (availability_no_decoder_line _ _ Hin).
Qed.

(** [send_command] does not return an empty byte string *)
Lemma send_command_shape (command : bytes) (w : World) (s : Self) :
  result_of (send_command command w s) = Ret None
  \/ exists b rest,
       result_of (send_command command w s) = Ret (Some (b :: rest)).
Proof.
  unfold result_of.
  exchange_cases command w s
    ltac:(exchange_eval s; first [left; reflexivity | right; eauto]).
Qed.

(** X14. On a free port [check] is its three steps in sequence: the
    availability check, one exchange with the version query, and the
    decoding of exactly the bytes the exchange returned; when the exchange
    returns [None] nothing is decoded.  The run returns normally in both
    cases. *)
Theorem check_composes (w : World) (s : Self) :
  result_of (check_port_availability w s) = Ret true ->
  check w s
  = (trace_of (check_port_availability w s)
     +++ trace_of (send_command version_command w s)
     +++ match result_of (send_command version_command w s) with
         | Ret (Some r) => trace_of (process_version_response r w s)
         | _ => []
         end,
     s, Ret tt).
Proof.
  intros Hfree.
  pose proof (send_command_shape version_command w s) as Hshape.
  destruct (send_command_run version_command w s) as (ts & r & Hs & _).
  rewrite (check_steps _ _ _ _ Hs).
  rewrite check_port_availability_run in *. rewrite Hs in *.
  unfold trace_of, result_of in *. cbn [fst snd] in *.
  injection Hfree as Hfree. rewrite Hfree.
  destruct r as [[|b0 rest]|].
  - destruct Hshape as [H|(b & rest & H)]; discriminate H.
  - rewrite process_version_response_run. reflexivity.
  - reflexivity.
Qed.

Lemma check_composes_witness :
  check answering_world (checker_on_MOD4 false)
  = ([Popen "fuser /dev/ttyMOD4"]
     +++ [SerialOpen "/dev/ttyMOD4" 115200 1; Flock; ResetInputBuffer;
          Write [xfe; x00; x21; x02; x23]; Sleep500ms; InWaiting; Read 14;
          SerialClose]
     +++ version_report "CC2652" 2 5 2 1 3 [xaa; xbb; xcc; xdd; xee],
     checker_on_MOD4 false, Ret tt).
Proof.
  apply (check_composes answering_world (checker_on_MOD4 false)).
  reflexivity.
Defined.







(** ** get_process_name_by_pid and the silent module *)

(** [get_process_name_by_pid] never raises: it runs one [ps] for the
    PID and returns [None] exactly when that [ps] could not be run;
    otherwise it returns what [ps] printed, stripped, which may be the
    empty string. *)
Theorem get_process_name_tolerates_failure (pid : string) (w : World)
    (s : Self) :
  exists name,
    get_process_name_by_pid pid w s
    = ([Popen ("ps -p " ++ pid ++ " -o comm=")], s, Ret name)
    /\ (name = None
        <-> exists e, popen_read w ("ps -p " ++ pid ++ " -o comm=") = inl e)
    /\ forall answer,
         popen_read w ("ps -p " ++ pid ++ " -o comm=") = inr answer ->
         name = Some (strip answer).
Proof.
  rewrite get_process_name_by_pid_run. unfold process_name.
  eexists. split; [reflexivity|].
  destruct (popen_read w ("ps -p " ++ pid ++ " -o comm=")) as [e|answer].
  - split; [split; eauto|discriminate].
  - split.
    + split; [discriminate|intros [e H]; discriminate H].
    + intros a E. injection E as E. now subst a.
Qed.

(** X16. [send_command] prints "No response received. The module might not
    be working." exactly when every step of the exchange worked and the
    read returned no byte: an exchange that failed is never reported as a
    silent module, whatever the message of its exception. *)
Theorem silent_module_line_iff (command : bytes) (w : World) (s : Self) :
  In (Print "No response received. The module might not be working.")
     (trace_of (send_command command w s))
  <-> (exchange_failure command w s = None
       /\ exists n,
            in_waiting w = inr n
            /\ serial_read w (or_nat n 64) = inr []).
Proof.
  unfold exchange_failure, trace_of.
  exchange_cases command w s
    ltac:(exchange_eval s;
          (split;
           [ intros Hin; in_cases Hin; try discriminate Hin;
             split; eauto
           | intros (H1 & n' & H2 & H3); try congruence;
             repeat (first [left; reflexivity | right]) ])).
Qed.
